(** * The /health endpoint of the ML service (src/ml-service/main.py)

    A shallow embedding of [health_check], the only function of the
    service with decision logic, and the properties of its health report.

    Modelling conventions.
    - Python floats are modelled by the rational numbers they denote
      ([Q]); arithmetic is exact.  The thresholds 90 and 95 are exactly
      representable, so [x > 90] on a finite float agrees with the
      comparison of rationals.  A quotient ([uptime_seconds / 3600],
      [available / 1024**3]) is the exact one, where the code has the
      nearest binary64 number: the two differ by at most [2^-53] of the
      quotient, which can move the rounded result to the neighbouring
      hundredth when the quotient lies that close to the middle of two
      hundredths (18 / 3600 is reported as 0.01).  The properties of
      these fields are therefore stated as bounds that hold of either
      hundredth, with [division_error] for the error of the division.
    - Python dicts are association lists in insertion order; a missing
      key is a [None] lookup.
    - The ambient readings of one call (clock, psutil, environment) are
      the fields of a [World]; [start_time] is the module-level global.
    - [raise] / [try ... except] are an error monad over the exceptions the
      function can meet. *)

From Stdlib Require Import ZArith QArith Qabs Qround Qminmax String List Bool Lia Lqa Sorting.Sorted.
Import ListNotations.

Local Open Scope string_scope.
Local Open Scope Q_scope.

(** ** Python values *)

#[warnings="-register-all"]
Inductive value : Type :=
| VStr (s : string)
| VNum (q : Q)
| VList (l : list value)
| VDict (d : list (string * value)).

Definition dict : Type := list (string * value).

Fixpoint dict_get (k : string) (d : dict) : option value :=
  match d with
  | [] => None
  | (k', v) :: d' => if String.eqb k k' then Some v else dict_get k d'
  end.

(** [d[k] = v]: replaces the value of an existing key, appends otherwise. *)
Fixpoint dict_set (k : string) (v : value) (d : dict) : dict :=
  match d with
  | [] => [(k, v)]
  | (k', v') :: d' =>
      if String.eqb k k' then (k', v) :: d' else (k', v') :: dict_set k v d'
  end.

Definition dict_keys (d : dict) : list string := map fst d.

(** Lookup in a value that is expected to be a dict. *)
Definition field (k : string) (v : value) : option value :=
  match v with
  | VDict d => dict_get k d
  | _ => None
  end.

(** ** Exceptions and the error monad *)

Inductive exn : Type :=
| HTTPException (status_code : Z) (detail : value)
| Fault (description : string).

Inductive result (A : Type) : Type :=
| Return (a : A)
| Raise (e : exn).

Arguments Return {A} a.
Arguments Raise {A} e.

Definition bind {A B : Type} (c : result A) (k : A -> result B) : result B :=
  match c with
  | Return a => k a
  | Raise e => Raise e
  end.

Notation "x <- c ;; k" := (bind c (fun x => k))
  (at level 61, c at next level, right associativity).

(** ** The ambient readings of one call *)

(** What a psutil call gives: a reading, or a fault with its description. *)
Inductive sampled (A : Type) : Type :=
| Sampled (a : A)
| SamplingFault (description : string).

Arguments Sampled {A} a.
Arguments SamplingFault {A} description.

Definition sample {A : Type} (s : sampled A) : result A :=
  match s with
  | Sampled a => Return a
  | SamplingFault description => Raise (Fault description)
  end.

(** The fields of [psutil.virtual_memory()] and [psutil.disk_usage('/')]
    that the function reads. *)
Record svmem : Type := { mem_percent : Q; mem_available : Z }.
Record sdiskusage : Type := { disk_percent : Q; disk_free : Z }.

Record World : Type := {
  time_time : Q;                    (* time.time(), line 46 *)
  cpu_sample : sampled Q;           (* psutil.cpu_percent(interval=1) *)
  memory_sample : sampled svmem;    (* psutil.virtual_memory() *)
  disk_sample : sampled sdiskusage; (* psutil.disk_usage('/') *)
  utcnow_report : string;           (* datetime.utcnow().isoformat(), line 79 *)
  utcnow_error : string;            (* datetime.utcnow().isoformat(), line 109 *)
  NODE_ENV : option string;         (* the environment variable, if set *)
  http_exception_str : Z -> value -> string
                                    (* str() of an HTTPException, as the
                                       installed Starlette defines it *)
}.

Definition getenv (v : option string) (default : string) : string :=
  match v with
  | Some s => s
  | None => default
  end.

(** [str(e)] in the handler. *)
Definition str (w : World) (e : exn) : string :=
  match e with
  | HTTPException status_code detail => http_exception_str w status_code detail
  | Fault description => description
  end.

(** ** Rounding *)

(** Round to the nearest integer, ties to the even one. *)
Definition round_half_even (x : Q) : Z :=
  let f := Qfloor x in
  match Qcompare (x - inject_Z f) (1 # 2) with
  | Lt => f
  | Gt => (f + 1)%Z
  | Eq => if Z.even f then f else (f + 1)%Z
  end.

(** Python's [round(x, ndigits)]. *)
Definition round (x : Q) (ndigits : nat) : Q :=
  let p := inject_Z (10 ^ Z.of_nat ndigits) in
  inject_Z (round_half_even (x * p)) / p.

(** ** Classification (lines 54-75) *)

(** [x > y] on floats. *)
Definition gt (x y : Q) : bool := negb (Qle_bool x y).

Definition classify (cpu_percent memory_percent disk_percent : Q)
  : string * list string :=
  let status := "healthy" in
  let issues := @nil string in
  let '(status, issues) :=
    if gt cpu_percent 90
    then ("degraded", (issues ++ ["High CPU usage"])%list)
    else (status, issues) in
  let '(status, issues) :=
    if gt memory_percent 90
    then ("degraded", (issues ++ ["High memory usage"])%list)
    else (status, issues) in
  let '(status, issues) :=
    if gt disk_percent 90
    then ("degraded", (issues ++ ["High disk usage"])%list)
    else (status, issues) in
  let status :=
    if gt cpu_percent 95 || gt memory_percent 95 || gt disk_percent 95
    then "unhealthy"
    else status in
  (status, issues).

(** ** The report (lines 77-97) *)

(** [uptime_hours] and the two GB fields round a quotient, which is the
    exact one here and the nearest binary64 number in the code, at most
    [division_error] away (see the conventions above). *)

Definition GiB : Q := inject_Z (1024 ^ 3).

Definition health_data (start_time : Q) (w : World)
  (cpu_percent : Q) (memory : svmem) (disk : sdiskusage) : dict :=
  let uptime_seconds := time_time w - start_time in
  let uptime_hours := uptime_seconds / 3600 in
  let '(status, issues) :=
    classify cpu_percent (mem_percent memory) (disk_percent disk) in
  let health_data :=
    [ ("status", VStr status);
      ("timestamp", VStr (utcnow_report w));
      ("uptime_seconds", VNum (round uptime_seconds 2));
      ("uptime_hours", VNum (round uptime_hours 2));
      ("system", VDict
         [ ("cpu_percent", VNum cpu_percent);
           ("memory_percent", VNum (mem_percent memory));
           ("memory_available_gb",
             VNum (round (inject_Z (mem_available memory) / GiB) 2));
           ("disk_percent", VNum (disk_percent disk));
           ("disk_free_gb",
             VNum (round (inject_Z (disk_free disk) / GiB) 2)) ]);
      ("service", VDict
         [ ("name", VStr "ml-service");
           ("version", VStr "1.0.0");
           ("environment", VStr (getenv (NODE_ENV w) "development")) ]) ] in
  match issues with
  | [] => health_data
  | _ :: _ => dict_set "issues" (VList (map VStr issues)) health_data
  end.

(** ** The handler's report (lines 107-115) *)

Definition error_response (w : World) (error : string) : dict :=
  [ ("status", VStr "unhealthy");
    ("timestamp", VStr (utcnow_error w));
    ("error", VStr error);
    ("service", VDict
       [ ("name", VStr "ml-service");
         ("version", VStr "1.0.0") ]) ].

(** ** [health_check] *)

(** The three psutil calls, in the order of lines 50-52. *)
Definition sampling (w : World) : result (Q * svmem * sdiskusage) :=
  cpu_percent <- sample (cpu_sample w) ;;
  memory <- sample (memory_sample w) ;;
  disk <- sample (disk_sample w) ;;
  Return (cpu_percent, memory, disk).

(** The body of the [try] (lines 45-103). *)
Definition try_block (start_time : Q) (w : World) : result value :=
  s <- sampling w ;;
  let '(cpu_percent, memory, disk) := s in
  let report := health_data start_time w cpu_percent memory disk in
  let status :=
    fst (classify cpu_percent (mem_percent memory) (disk_percent disk)) in
  if String.eqb status "unhealthy"
  then Raise (HTTPException 503 (VDict report))
  else Return (VDict report).

(** [try: ... except Exception as e: ...]: both [HTTPException] and the
    psutil faults derive from [Exception], so the handler catches every
    exception of the body. *)
Definition health_check (start_time : Q) (w : World) : result value :=
  match try_block start_time w with
  | Return v => Return v
  | Raise e => Raise (HTTPException 503 (VDict (error_response w (str w e))))
  end.

(** What the HTTP layer makes of the outcome: a returned value is sent
    with code 200, an [HTTPException] with its own code and its detail as
    payload, any other exception as a bare 500. *)
Definition respond (r : result value) : Z * value :=
  match r with
  | Return v => (200%Z, v)
  | Raise (HTTPException status_code detail) => (status_code, detail)
  | Raise (Fault _) => (500%Z, VStr "Internal Server Error")
  end.

Definition check (start_time : Q) (w : World) : Z * value :=
  respond (health_check start_time w).

(** ** The two shapes of payload *)

Definition health_report_keys : list string :=
  ["status"; "timestamp"; "uptime_seconds"; "uptime_hours"; "system"; "service"].

Definition error_report_keys : list string :=
  ["status"; "timestamp"; "error"; "service"].

Definition list_string_eqb (a b : list string) : bool :=
  if list_eq_dec string_dec a b then true else false.

(** A HealthReport: the six fixed keys, then [issues] or nothing. *)
Definition is_health_report (v : value) : bool :=
  match v with
  | VDict d =>
      list_string_eqb (dict_keys d) health_report_keys
      || list_string_eqb (dict_keys d) (health_report_keys ++ ["issues"])%list
  | _ => false
  end.

Definition is_error_report (v : value) : bool :=
  match v with
  | VDict d => list_string_eqb (dict_keys d) error_report_keys
  | _ => false
  end.

(** Nested lookup: [v[k1][k2]...]. *)
Fixpoint lookup (path : list string) (v : value) : option value :=
  match path with
  | [] => Some v
  | k :: path' =>
      match field k v with
      | Some v' => lookup path' v'
      | None => None
      end
  end.

(** ** Notions the properties are stated with *)

(** The three messages, in the order of the checks. *)
Definition issue_messages : list string :=
  ["High CPU usage"; "High memory usage"; "High disk usage"].

(** The messages of the metrics above 90, chosen from the table of the
    three metrics: what the issues list is expected to hold. *)
Definition issues_above_90 (cpu_percent memory_percent disk_percent : Q)
  : list string :=
  map snd
    (filter (fun p => gt (fst p) 90)
       (combine [cpu_percent; memory_percent; disk_percent] issue_messages)).

Inductive subsequence {A : Type} : list A -> list A -> Prop :=
| subsequence_nil : subsequence [] []
| subsequence_take x l1 l2 : subsequence l1 l2 -> subsequence (x :: l1) (x :: l2)
| subsequence_drop x l1 l2 : subsequence l1 l2 -> subsequence l1 (x :: l2).

(** A number with at most two decimal places. *)
Definition two_decimals (q : Q) : Prop := exists k : Z, q == inject_Z k / 100.




(** The [uptime_seconds] of a call answered with code 200. *)
Definition reported_uptime (start_time : Q) (w : World) : option Q :=
  let '(code, body) := check start_time w in
  if Z.eqb code 200 then
    match field "uptime_seconds" body with
    | Some (VNum q) => Some q
    | _ => None
    end
  else None.

(** The uptimes reported by the successful calls of a run: the calls of
    one process, in the order they are made, each with its own readings. *)
Fixpoint uptimes (start_time : Q) (run : list World) : list Q :=
  match run with
  | [] => []
  | w :: run' =>
      match reported_uptime start_time w with
      | Some u => u :: uptimes start_time run'
      | None => uptimes start_time run'
      end
  end.

(** A payload whose service record has name, version and environment. *)
Definition full_service_identity (body : value) : Prop :=
  lookup ["service"; "name"] body <> None /\
  lookup ["service"; "version"] body <> None /\
  lookup ["service"; "environment"] body <> None.

(** ** Example worlds *)

Definition quiet_world (cpu mem disk : Q) (now : Q) : World :=
  {| time_time := now;
     cpu_sample := Sampled cpu;
     memory_sample := Sampled {| mem_percent := mem; mem_available := 8589934592 |};
     disk_sample := Sampled {| disk_percent := disk; disk_free := 53687091200 |};
     utcnow_report := "2024-01-01T00:00:00";
     utcnow_error := "2024-01-01T00:00:01";
     NODE_ENV := None;
     http_exception_str := fun _ _ => "" |}.

(** The same readings under another [str()] of [HTTPException]. *)
Definition with_str (f : Z -> value -> string) (w : World) : World :=
  {| time_time := time_time w;
     cpu_sample := cpu_sample w;
     memory_sample := memory_sample w;
     disk_sample := disk_sample w;
     utcnow_report := utcnow_report w;
     utcnow_error := utcnow_error w;
     NODE_ENV := NODE_ENV w;
     http_exception_str := f |}.

(** Disk sampling fails; the CPU and memory readings are fine. *)
Definition disk_fault_world : World :=
  {| time_time := 100;
     cpu_sample := Sampled 10;
     memory_sample := Sampled {| mem_percent := 20; mem_available := 8589934592 |};
     disk_sample := SamplingFault "disk unreadable";
     utcnow_report := "2024-01-01T00:00:00";
     utcnow_error := "2024-01-01T00:00:01";
     NODE_ENV := Some "production";
     http_exception_str := fun _ _ => "" |}.

(** Two calls in a row; between them the system clock is set back
    from 100 to 50. *)
Definition clock_set_back_run : list World :=
  [quiet_world 10 20 30 100; quiet_world 10 20 30 50].

(** Two calls in a row under a clock that advances. *)
Definition steady_run : list World :=
  [quiet_world 10 20 30 100; quiet_world 10 20 30 250].

(** ** The root endpoint (lines 31-37) *)

Definition root : dict :=
  [ ("message", VStr "Singapore Housing Predictor ML Service");
    ("version", VStr "1.0.0");
    ("status", VStr "running") ].

(** The CPU reading fails and so would the disk reading. *)
Definition cpu_and_disk_fault_world : World :=
  {| time_time := 100;
     cpu_sample := SamplingFault "cpu counters unavailable";
     memory_sample := Sampled {| mem_percent := 20; mem_available := 8589934592 |};
     disk_sample := SamplingFault "disk unreadable";
     utcnow_report := "2024-01-01T00:00:00";
     utcnow_error := "2024-01-01T00:00:01";
     NODE_ENV := None;
     http_exception_str := fun _ _ => "" |}.

(** How bad a status is: healthy below degraded below unhealthy. *)
Definition severity (status : string) : nat :=
  if String.eqb status "healthy" then 0%nat
  else if String.eqb status "degraded" then 1%nat
  else 2%nat.

(** * Properties *)

(** ** Comparisons *)

Lemma gt_true_iff (x y : Q) : gt x y = true <-> y < x.
Proof.
  unfold gt. rewrite negb_true_iff, <- not_true_iff_false, Qle_bool_iff.
  split; intro H; lra.
Qed.

Lemma gt_false_iff (x y : Q) : gt x y = false <-> x <= y.
Proof.
  unfold gt. rewrite negb_false_iff, Qle_bool_iff. reflexivity.
Qed.

Lemma gt_comp (x x' y : Q) : x == x' -> gt x y = gt x' y.
Proof.
  intro H. destruct (gt x' y) eqn:E.
  - apply gt_true_iff. apply gt_true_iff in E. lra.
  - apply gt_false_iff. apply gt_false_iff in E. lra.
Qed.

(** Decide every threshold test of a goal and turn the outcomes into
    order facts. *)
Ltac thresholds :=
  repeat match goal with
    | |- context [gt ?x ?y] =>
        let E := fresh "E" in
        destruct (gt x y) eqn:E;
        [apply gt_true_iff in E | apply gt_false_iff in E]
    end.

(** ** Classification *)

Lemma classify_healthy (cpu mem disk : Q) :
  cpu <= 90 -> mem <= 90 -> disk <= 90 ->
  classify cpu mem disk = ("healthy", []).
Proof.
  intros Hc Hm Hd. unfold classify.
  thresholds; try lra; reflexivity.
Qed.

Lemma classify_unhealthy (cpu mem disk : Q) :
  95 < cpu \/ 95 < mem \/ 95 < disk ->
  fst (classify cpu mem disk) = "unhealthy".
Proof.
  intros H. unfold classify.
  thresholds; simpl; try reflexivity; lra.
Qed.

Lemma classify_issues (cpu mem disk : Q) :
  snd (classify cpu mem disk) = issues_above_90 cpu mem disk.
Proof.
  unfold classify, issues_above_90. simpl.
  thresholds; reflexivity.
Qed.

Lemma classify_not_unhealthy (cpu mem disk : Q) :
  cpu <= 95 -> mem <= 95 -> disk <= 95 ->
  fst (classify cpu mem disk) <> "unhealthy".
Proof.
  intros Hc Hm Hd. unfold classify.
  thresholds; simpl; try lra; discriminate.
Qed.

(** ** Rounding *)

Lemma round_half_even_floor (x : Q) :
  (Qfloor x <= round_half_even x <= Qfloor x + 1)%Z.
Proof.
  unfold round_half_even.
  destruct (Qcompare (x - inject_Z (Qfloor x)) (1 # 2));
    try destruct (Z.even (Qfloor x)); lia.
Qed.

Lemma floor_fraction (x : Q) :
  0 <= x - inject_Z (Qfloor x) /\ x - inject_Z (Qfloor x) < 1.
Proof.
  pose proof (Qfloor_le x) as Hl.
  pose proof (Qlt_floor x) as Hu.
  rewrite inject_Z_plus in Hu. change (inject_Z 1) with 1 in Hu.
  split; lra.
Qed.

(** The rounded value is within one half of the argument. *)
Lemma round_half_even_close (x : Q) :
  x - (1 # 2) <= inject_Z (round_half_even x) <= x + (1 # 2).
Proof.
  destruct (floor_fraction x) as [Hl Hu].
  unfold round_half_even.
  destruct (Qcompare_spec (x - inject_Z (Qfloor x)) (1 # 2)) as [E | E | E];
    try destruct (Z.even (Qfloor x));
    rewrite ?inject_Z_plus; change (inject_Z 1) with 1; lra.
Qed.

Lemma round_half_even_mono (x y : Q) :
  x <= y -> (round_half_even x <= round_half_even y)%Z.
Proof.
  intro Hxy.
  pose proof (Qfloor_resp_le _ _ Hxy) as Hf.
  destruct (Z.eq_dec (Qfloor x) (Qfloor y)) as [Heq | Hne].
  - unfold round_half_even. rewrite <- Heq.
    destruct (Qcompare_spec (x - inject_Z (Qfloor x)) (1 # 2)) as [Ex | Ex | Ex];
      destruct (Qcompare_spec (y - inject_Z (Qfloor x)) (1 # 2)) as [Ey | Ey | Ey];
      try destruct (Z.even (Qfloor x)); try lia; exfalso; lra.
  - pose proof (round_half_even_floor x).
    pose proof (round_half_even_floor y).
    lia.
Qed.

Lemma ten_power_pos (n : nat) : 0 < inject_Z (10 ^ Z.of_nat n).
Proof.
  change 0 with (inject_Z 0). rewrite <- Zlt_Qlt.
  apply Z.pow_pos_nonneg; lia.
Qed.

Lemma round_mono (x y : Q) (ndigits : nat) :
  x <= y -> round x ndigits <= round y ndigits.
Proof.
  intro Hxy. unfold round.
  pose proof (ten_power_pos ndigits) as Hp.
  set (p := inject_Z (10 ^ Z.of_nat ndigits)) in *.
  apply Qmult_le_compat_r.
  - rewrite <- Zle_Qle. apply round_half_even_mono.
    apply Qmult_le_compat_r; lra.
  - apply Qlt_le_weak, Qinv_lt_0_compat, Hp.
Qed.

Lemma round_two_decimals (x : Q) : two_decimals (round x 2).
Proof.
  exists (round_half_even (x * inject_Z (10 ^ Z.of_nat 2))).
  reflexivity.
Qed.

Lemma round_2_close (x : Q) :
  x - (1 # 200) <= round x 2 <= x + (1 # 200).
Proof.
  unfold round.
  change (inject_Z (10 ^ Z.of_nat 2)) with 100.
  pose proof (round_half_even_close (x * 100)) as H.
  set (k := inject_Z (round_half_even (x * 100))) in *.
  split.
  - apply Qle_shift_div_l; lra.
  - apply Qle_shift_div_r; lra.
Qed.

(** ** The report *)

Lemma health_data_status st w cpu memory disk :
  dict_get "status" (health_data st w cpu memory disk) =
  Some (VStr (fst (classify cpu (mem_percent memory) (disk_percent disk)))).
Proof.
  unfold health_data.
  destruct (classify cpu (mem_percent memory) (disk_percent disk)) as [s [| i l]];
    reflexivity.
Qed.

Lemma health_data_issues st w cpu memory disk :
  dict_get "issues" (health_data st w cpu memory disk) =
  match snd (classify cpu (mem_percent memory) (disk_percent disk)) with
  | [] => None
  | i :: l => Some (VList (map VStr (i :: l)))
  end.
Proof.
  unfold health_data.
  destruct (classify cpu (mem_percent memory) (disk_percent disk)) as [s [| i l]];
    reflexivity.
Qed.

Lemma health_data_uptime_seconds st w cpu memory disk :
  dict_get "uptime_seconds" (health_data st w cpu memory disk) =
  Some (VNum (round (time_time w - st) 2)).
Proof.
  unfold health_data.
  destruct (classify cpu (mem_percent memory) (disk_percent disk)) as [s [| i l]];
    reflexivity.
Qed.

Lemma health_data_is_health_report st w cpu memory disk :
  is_health_report (VDict (health_data st w cpu memory disk)) = true.
Proof.
  unfold health_data.
  destruct (classify cpu (mem_percent memory) (disk_percent disk)) as [s [| i l]];
    reflexivity.
Qed.

(** ** The outcomes of [check] *)

(** Sampling ends with the three readings or with a fault of psutil. *)
Lemma sampling_cases (w : World) :
  (exists cpu memory disk, sampling w = Return (cpu, memory, disk)) \/
  (exists description, sampling w = Raise (Fault description)).
Proof.
  unfold sampling.
  destruct (cpu_sample w) as [cpu | s]; simpl; [| right; eauto].
  destruct (memory_sample w) as [memory | s]; simpl; [| right; eauto].
  destruct (disk_sample w) as [disk | s]; simpl; [| right; eauto].
  left; eauto.
Qed.

Lemma check_routable st w cpu memory disk :
  sampling w = Return (cpu, memory, disk) ->
  fst (classify cpu (mem_percent memory) (disk_percent disk)) <> "unhealthy" ->
  check st w = (200%Z, VDict (health_data st w cpu memory disk)).
Proof.
  intros Hs Hst. unfold check, health_check, try_block.
  rewrite Hs. cbn [bind].
  apply String.eqb_neq in Hst. rewrite Hst. reflexivity.
Qed.

(** The [HTTPException] raised at line 101 is raised inside the [try],
    so the handler of line 105 catches it and answers with its own
    report. *)
Lemma check_unhealthy st w cpu memory disk :
  sampling w = Return (cpu, memory, disk) ->
  fst (classify cpu (mem_percent memory) (disk_percent disk)) = "unhealthy" ->
  check st w =
  (503%Z,
   VDict (error_response w
            (http_exception_str w 503
               (VDict (health_data st w cpu memory disk))))).
Proof.
  intros Hs Hst. unfold check, health_check, try_block.
  rewrite Hs. cbn [bind]. rewrite Hst. reflexivity.
Qed.

Lemma check_fault st w description :
  sampling w = Raise (Fault description) ->
  check st w = (503%Z, VDict (error_response w description)).
Proof.
  intros Hs. unfold check, health_check, try_block.
  rewrite Hs. reflexivity.
Qed.

Lemma reported_uptime_value st w u :
  reported_uptime st w = Some u -> u = round (time_time w - st) 2.
Proof.
  unfold reported_uptime.
  destruct (sampling_cases w) as [(cpu & memory & disk & Hs) | (s & Hs)].
  - destruct (string_dec
                (fst (classify cpu (mem_percent memory) (disk_percent disk)))
                "unhealthy") as [Hst | Hst].
    + rewrite (check_unhealthy st w _ _ _ Hs Hst). discriminate.
    + rewrite (check_routable st w _ _ _ Hs Hst).
      cbn [Z.eqb Pos.eqb field]. rewrite health_data_uptime_seconds.
      intros H; injection H as <-. reflexivity.
  - rewrite (check_fault st w _ Hs). discriminate.
Qed.

(** ** The unhealthy path *)

(** C1 (the code departs from the claim): with cpu=96, mem=10, disk=10
    sampling succeeds and the status is "unhealthy"; the answer has code
    503, but its payload is the handler's error report, whatever [str()]
    makes of the exception: it has the keys status, timestamp, error and
    service, and no system, uptime or issues field.  The health report
    survives only inside the error string. *)
Theorem unhealthy_payload_is_error_report (f : Z -> value -> string) (st : Q) :
  let w := with_str f (quiet_world 96 10 10 100) in
  sampling w =
    Return (96, {| mem_percent := 10; mem_available := 8589934592 |},
                {| disk_percent := 10; disk_free := 53687091200 |}) /\
  fst (classify 96 10 10) = "unhealthy" /\
  fst (check st w) = 503%Z /\
  is_health_report (snd (check st w)) = false /\
  is_error_report (snd (check st w)) = true /\
  lookup ["system"] (snd (check st w)) = None /\
  lookup ["uptime_seconds"] (snd (check st w)) = None /\
  lookup ["issues"] (snd (check st w)) = None /\
  lookup ["error"] (snd (check st w)) =
    Some (VStr (f 503%Z
                  (VDict (health_data st w 96
                            {| mem_percent := 10; mem_available := 8589934592 |}
                            {| disk_percent := 10; disk_free := 53687091200 |})))).
Proof.
  intros w.
  assert (Hs : sampling w =
    Return (96, {| mem_percent := 10; mem_available := 8589934592 |},
                {| disk_percent := 10; disk_free := 53687091200 |}))
    by reflexivity.
  assert (Hc : fst (classify 96 10 10) = "unhealthy") by reflexivity.
  rewrite (check_unhealthy st w _ _ _ Hs Hc).
  repeat split; reflexivity.
Qed.

(** C2 (the code departs from the claim): with cpu=10, mem=97, disk=10
    no sampling call fails, and still the payload of [check] is an error
    report and not a health report. *)
Theorem error_report_without_sampling_fault (f : Z -> value -> string) (st : Q) :
  let w := with_str f (quiet_world 10 97 10 100) in
  (exists cpu memory disk, sampling w = Return (cpu, memory, disk)) /\
  is_error_report (snd (check st w)) = true /\
  is_health_report (snd (check st w)) = false.
Proof.
  intros w.
  assert (Hs : sampling w =
    Return (10, {| mem_percent := 97; mem_available := 8589934592 |},
                {| disk_percent := 10; disk_free := 53687091200 |}))
    by reflexivity.
  assert (Hc : fst (classify 10 97 10) = "unhealthy") by reflexivity.
  split; [eauto |].
  rewrite (check_unhealthy st w _ _ _ Hs Hc).
  split; reflexivity.
Qed.

(** ** Classification *)

(** C3: if any one metric exceeds 95 the status is "unhealthy" whatever
    the other two are, and the issues are still exactly the messages of
    the metrics above 90, each present if and only if its metric exceeds
    90; the report carries that status and those issues. *)
Theorem escalation_keeps_issues st w (cpu : Q) (memory : svmem) (disk : sdiskusage) :
  95 < cpu \/ 95 < mem_percent memory \/ 95 < disk_percent disk ->
  let status := fst (classify cpu (mem_percent memory) (disk_percent disk)) in
  let issues := snd (classify cpu (mem_percent memory) (disk_percent disk)) in
  status = "unhealthy" /\
  issues = issues_above_90 cpu (mem_percent memory) (disk_percent disk) /\
  (In "High CPU usage" issues <-> 90 < cpu) /\
  (In "High memory usage" issues <-> 90 < mem_percent memory) /\
  (In "High disk usage" issues <-> 90 < disk_percent disk) /\
  (forall m, In m issues -> In m issue_messages) /\
  dict_get "status" (health_data st w cpu memory disk) = Some (VStr "unhealthy") /\
  dict_get "issues" (health_data st w cpu memory disk) = Some (VList (map VStr issues)).
Proof.
  intros H status issues.
  pose proof (classify_unhealthy _ _ _ H) as Hst.
  pose proof (classify_issues cpu (mem_percent memory) (disk_percent disk)) as His.
  pose proof (health_data_status st w cpu memory disk) as Hds.
  pose proof (health_data_issues st w cpu memory disk) as Hdi.
  fold status in Hst, Hds. fold issues in His, Hdi.
  rewrite Hst in Hds.
  assert (Hne : issues <> []).
  { rewrite His. unfold issues_above_90. cbn [combine issue_messages filter fst].
    thresholds; cbn; try discriminate; lra. }
  split; [exact Hst |]. split; [exact His |].
  split; [| split; [| split; [| split; [| split]]]].
  1-4: rewrite His; unfold issues_above_90;
       cbn [combine issue_messages filter fst];
       thresholds; cbn; intuition (try discriminate; try lra).
  - exact Hds.
  - destruct issues; [congruence | exact Hdi].
Qed.

Lemma escalation_keeps_issues_witness :
  (95 < 96 \/ 95 < 92 \/ 95 < 10) /\
  fst (classify 96 92 10) = "unhealthy" /\
  snd (classify 96 92 10) = ["High CPU usage"; "High memory usage"].
Proof.
  assert (H : 95 < 96 \/ 95 < 92 \/ 95 < 10) by (left; reflexivity).
  split; [exact H |].
  destruct (escalation_keeps_issues 0 (quiet_world 96 92 10 100) 96
              {| mem_percent := 92; mem_available := 8589934592 |}
              {| disk_percent := 10; disk_free := 53687091200 |} H)
    as (H1 & H2 & _).
  split; [exact H1 | exact H2].
Defined.

(** C4: when sampling gives three metrics that all lie in [0, 90], [check]
    answers with code 200 and the health report, whose status is
    "healthy" and which has no issues key at all (not an empty list). *)
Theorem healthy_in_range st w (cpu : Q) (memory : svmem) (disk : sdiskusage) :
  sampling w = Return (cpu, memory, disk) ->
  0 <= cpu <= 90 ->
  0 <= mem_percent memory <= 90 ->
  0 <= disk_percent disk <= 90 ->
  classify cpu (mem_percent memory) (disk_percent disk) = ("healthy", []) /\
  fst (check st w) = 200%Z /\
  snd (check st w) = VDict (health_data st w cpu memory disk) /\
  is_health_report (snd (check st w)) = true /\
  lookup ["status"] (snd (check st w)) = Some (VStr "healthy") /\
  lookup ["issues"] (snd (check st w)) = None /\
  ~ In "issues" (dict_keys (health_data st w cpu memory disk)).
Proof.
  intros Hs [_ Hc] [_ Hm] [_ Hd].
  pose proof (classify_healthy _ _ _ Hc Hm Hd) as Hcl.
  assert (Hst : fst (classify cpu (mem_percent memory) (disk_percent disk))
                <> "unhealthy") by (rewrite Hcl; discriminate).
  rewrite (check_routable st w _ _ _ Hs Hst). cbn [fst snd lookup field].
  rewrite health_data_status, health_data_issues, health_data_is_health_report.
  rewrite Hcl. cbn [fst snd].
  repeat split; try reflexivity.
  unfold health_data. rewrite Hcl. cbn.
  intuition discriminate.
Qed.

Lemma healthy_in_range_witness :
  fst (check 0 (quiet_world 10 20 30 100)) = 200%Z /\
  lookup ["status"] (snd (check 0 (quiet_world 10 20 30 100))) =
    Some (VStr "healthy") /\
  lookup ["issues"] (snd (check 0 (quiet_world 10 20 30 100))) = None.
Proof.
  destruct (healthy_in_range 0 (quiet_world 10 20 30 100) 10
              {| mem_percent := 20; mem_available := 8589934592 |}
              {| disk_percent := 30; disk_free := 53687091200 |})
    as (_ & H1 & _ & _ & H2 & H3 & _).
  - reflexivity.
  - split; discriminate.
  - split; discriminate.
  - split; discriminate.
  - split; [exact H1 | split; [exact H2 | exact H3]].
Defined.

(** C5: when exactly one metric lies in (90, 95] and the other two are
    at most 90, the status is "degraded", the issues list has exactly one
    entry, the message of the elevated metric, and [check] answers with
    code 200 and the health report carrying both. *)
Theorem degraded_single_metric st w (cpu : Q) (memory : svmem)
    (disk : sdiskusage) (message : string) :
  sampling w = Return (cpu, memory, disk) ->
  (90 < cpu <= 95 /\ mem_percent memory <= 90 /\ disk_percent disk <= 90 /\
     message = "High CPU usage") \/
  (cpu <= 90 /\ 90 < mem_percent memory <= 95 /\ disk_percent disk <= 90 /\
     message = "High memory usage") \/
  (cpu <= 90 /\ mem_percent memory <= 90 /\ 90 < disk_percent disk <= 95 /\
     message = "High disk usage") ->
  classify cpu (mem_percent memory) (disk_percent disk) = ("degraded", [message]) /\
  fst (check st w) = 200%Z /\
  snd (check st w) = VDict (health_data st w cpu memory disk) /\
  lookup ["status"] (snd (check st w)) = Some (VStr "degraded") /\
  lookup ["issues"] (snd (check st w)) = Some (VList [VStr message]).
Proof.
  intros Hs H.
  assert (Hcl : classify cpu (mem_percent memory) (disk_percent disk)
                = ("degraded", [message])).
  { unfold classify.
    destruct H as [(H1 & H2 & H3 & ->) | [(H1 & H2 & H3 & ->) | (H1 & H2 & H3 & ->)]];
      thresholds; cbn; try reflexivity; lra. }
  assert (Hst : fst (classify cpu (mem_percent memory) (disk_percent disk))
                <> "unhealthy") by (rewrite Hcl; discriminate).
  rewrite (check_routable st w _ _ _ Hs Hst). cbn [fst snd lookup field].
  rewrite health_data_status, health_data_issues, Hcl.
  repeat split; reflexivity.
Qed.

Lemma degraded_single_metric_witness :
  fst (check 0 (quiet_world 92 10 10 100)) = 200%Z /\
  lookup ["status"] (snd (check 0 (quiet_world 92 10 10 100))) =
    Some (VStr "degraded") /\
  lookup ["issues"] (snd (check 0 (quiet_world 92 10 10 100))) =
    Some (VList [VStr "High CPU usage"]).
Proof.
  destruct (degraded_single_metric 0 (quiet_world 92 10 10 100) 92
              {| mem_percent := 10; mem_available := 8589934592 |}
              {| disk_percent := 10; disk_free := 53687091200 |}
              "High CPU usage")
    as (_ & H1 & _ & H2 & H3).
  - reflexivity.
  - left. repeat split; try reflexivity; discriminate.
  - split; [exact H1 | split; [exact H2 | exact H3]].
Defined.

(** C6: for every metric triple the issues list is a subsequence of
    ["High CPU usage"; "High memory usage"; "High disk usage"]: the CPU
    message, if present, comes before the memory message, which comes
    before the disk message. *)
Theorem issues_in_fixed_order st w (cpu : Q) (memory : svmem) (disk : sdiskusage) :
  let issues := snd (classify cpu (mem_percent memory) (disk_percent disk)) in
  subsequence issues issue_messages /\
  (dict_get "issues" (health_data st w cpu memory disk) = None \/
   dict_get "issues" (health_data st w cpu memory disk) =
     Some (VList (map VStr issues))).
Proof.
  intros issues. split.
  - unfold issues, classify, issue_messages.
    thresholds; cbn; repeat constructor.
  - rewrite health_data_issues. fold issues.
    destruct issues; [left | right]; reflexivity.
Qed.

(** ** Sampling faults *)

(** C7, as stated, fails: when the disk cannot be read the payload's
    service record has a name and a version but no environment. *)
Lemma error_report_lacks_environment :
  sampling disk_fault_world = Raise (Fault "disk unreadable") /\
  ~ full_service_identity (snd (check 0 disk_fault_world)).
Proof.
  split; [reflexivity |].
  intros (_ & _ & H). apply H. reflexivity.
Qed.

(** C7, amended: whenever sampling raises a fault, [check] answers with
    code 503 and an error report holding the status "unhealthy", the
    handler's timestamp, the fault's description and a service record of
    name and version only; it has no system and no issues field, and the
    service record has no environment. *)
Theorem sampling_fault_report st w (description : string) :
  sampling w = Raise (Fault description) ->
  check st w =
    (503%Z,
     VDict [ ("status", VStr "unhealthy");
             ("timestamp", VStr (utcnow_error w));
             ("error", VStr description);
             ("service", VDict [ ("name", VStr "ml-service");
                                 ("version", VStr "1.0.0") ]) ]) /\
  is_error_report (snd (check st w)) = true /\
  lookup ["system"] (snd (check st w)) = None /\
  lookup ["issues"] (snd (check st w)) = None /\
  lookup ["service"; "environment"] (snd (check st w)) = None.
Proof.
  intros Hs. rewrite (check_fault st w _ Hs).
  repeat split; reflexivity.
Qed.

Lemma sampling_fault_report_witness :
  sampling disk_fault_world = Raise (Fault "disk unreadable") /\
  fst (check 0 disk_fault_world) = 503%Z /\
  lookup ["error"] (snd (check 0 disk_fault_world)) =
    Some (VStr "disk unreadable") /\
  lookup ["system"] (snd (check 0 disk_fault_world)) = None.
Proof.
  assert (Hs : sampling disk_fault_world = Raise (Fault "disk unreadable"))
    by reflexivity.
  destruct (sampling_fault_report 0 disk_fault_world "disk unreadable" Hs)
    as (H1 & _ & H2 & _).
  split; [exact Hs |].
  split; [rewrite H1; reflexivity |].
  split; [rewrite H1; reflexivity | exact H2].
Defined.

(** ** Uptime *)

Lemma uptimes_bounded st (t : Q) (run : list World) :
  Forall (Qle t) (map time_time run) ->
  Forall (Qle (round (t - st) 2)) (uptimes st run).
Proof.
  induction run as [| w run IH]; intros H; cbn [uptimes map] in *.
  - constructor.
  - inversion H as [| ? ? Hw Hrun]; subst.
    destruct (reported_uptime st w) as [u |] eqn:E; [| auto].
    apply reported_uptime_value in E. subst u.
    constructor; [| auto].
    apply round_mono. lra.
Qed.

(** C8, as stated, fails: the uptime is computed from [time.time()], the
    system clock, and when that clock is set back between two successful
    calls the later call reports the smaller uptime (100.0, then 50.0). *)
Lemma uptime_decreases_when_clock_set_back :
  map time_time clock_set_back_run = [100; 50] /\
  map (fun w => fst (check 0 w)) clock_set_back_run = [200%Z; 200%Z] /\
  ~ StronglySorted Qle (uptimes 0 clock_set_back_run).
Proof.
  split; [reflexivity |]. split; [reflexivity |].
  intros H. vm_compute in H.
  inversion H as [| ? ? _ HF]; subst.
  inversion HF as [| ? ? Hle _]; subst.
  apply Hle. reflexivity.
Qed.

(** C8, amended: over the calls of one process, taken in order, if the
    readings of the system clock do not decrease from a call to the later
    ones, the uptimes reported by the successful calls do not decrease
    either. *)
Theorem uptime_monotone st (run : list World) :
  StronglySorted Qle (map time_time run) ->
  StronglySorted Qle (uptimes st run).
Proof.
  induction run as [| w run IH]; intros H; cbn [uptimes map] in *.
  - constructor.
  - inversion H as [| ? ? Hrun Hw]; subst.
    destruct (reported_uptime st w) as [u |] eqn:E; [| auto].
    apply reported_uptime_value in E. subst u.
    constructor; [auto |].
    apply uptimes_bounded, Hw.
Qed.

Lemma uptime_monotone_witness :
  StronglySorted Qle (map time_time steady_run) /\
  StronglySorted Qle (uptimes 0 steady_run).
Proof.
  assert (H : StronglySorted Qle (map time_time steady_run)).
  { repeat constructor; discriminate. }
  split; [exact H | exact (uptime_monotone 0 steady_run H)].
Defined.

(** ** Determinism *)

(** C9: status and issues are determined by the three metrics alone:
    two evaluations on equal triples classify alike, and so do the status
    and issues of their reports, whatever the start times, the clocks,
    the other readings and the environment are. *)
Theorem classification_depends_on_metrics_only
    st1 st2 w1 w2 (cpu1 cpu2 : Q) (memory1 memory2 : svmem)
    (disk1 disk2 : sdiskusage) :
  cpu1 == cpu2 ->
  mem_percent memory1 == mem_percent memory2 ->
  disk_percent disk1 == disk_percent disk2 ->
  classify cpu1 (mem_percent memory1) (disk_percent disk1) =
  classify cpu2 (mem_percent memory2) (disk_percent disk2) /\
  dict_get "status" (health_data st1 w1 cpu1 memory1 disk1) =
  dict_get "status" (health_data st2 w2 cpu2 memory2 disk2) /\
  dict_get "issues" (health_data st1 w1 cpu1 memory1 disk1) =
  dict_get "issues" (health_data st2 w2 cpu2 memory2 disk2).
Proof.
  intros Hc Hm Hd.
  assert (Hcl : classify cpu1 (mem_percent memory1) (disk_percent disk1) =
                classify cpu2 (mem_percent memory2) (disk_percent disk2)).
  { unfold classify.
    rewrite !(gt_comp _ _ _ Hc), !(gt_comp _ _ _ Hm), !(gt_comp _ _ _ Hd).
    reflexivity. }
  rewrite !health_data_status, !health_data_issues, Hcl.
  repeat split; reflexivity.
Qed.

Lemma classification_depends_on_metrics_only_witness :
  classify (92 # 1) 10 10 = classify (184 # 2) 10 10 /\
  dict_get "status"
    (health_data 0 (quiet_world 92 10 10 100) (92 # 1)
       {| mem_percent := 10; mem_available := 8589934592 |}
       {| disk_percent := 10; disk_free := 53687091200 |}) =
  dict_get "status"
    (health_data 7 disk_fault_world (184 # 2)
       {| mem_percent := 10; mem_available := 1 |}
       {| disk_percent := 10; disk_free := 2 |}).
Proof.
  destruct (classification_depends_on_metrics_only
              0 7 (quiet_world 92 10 10 100) disk_fault_world
              (92 # 1) (184 # 2)
              {| mem_percent := 10; mem_available := 8589934592 |}
              {| mem_percent := 10; mem_available := 1 |}
              {| disk_percent := 10; disk_free := 53687091200 |}
              {| disk_percent := 10; disk_free := 2 |})
    as (H1 & H2 & _); try reflexivity.
  split; [exact H1 | exact H2].
Defined.

(** ** Rounding of the reported numbers *)


Lemma health_data_numbers st w cpu memory disk :
  let report := VDict (health_data st w cpu memory disk) in
  lookup ["uptime_seconds"] report = Some (VNum (round (time_time w - st) 2)) /\
  lookup ["uptime_hours"] report =
    Some (VNum (round ((time_time w - st) / 3600) 2)) /\
  lookup ["system"; "memory_available_gb"] report =
    Some (VNum (round (inject_Z (mem_available memory) / 1073741824) 2)) /\
  lookup ["system"; "disk_free_gb"] report =
    Some (VNum (round (inject_Z (disk_free disk) / 1073741824) 2)) /\
  lookup ["system"; "cpu_percent"] report = Some (VNum cpu) /\
  lookup ["system"; "memory_percent"] report = Some (VNum (mem_percent memory)) /\
  lookup ["system"; "disk_percent"] report = Some (VNum (disk_percent disk)).
Proof.
  unfold health_data.
  destruct (classify cpu (mem_percent memory) (disk_percent disk)) as [s [| i l]];
    repeat split; reflexivity.
Qed.







(** * Further properties of [health_check] *)

Lemma classify_status_cases (cpu mem disk : Q) :
  fst (classify cpu mem disk) = "healthy" \/
  fst (classify cpu mem disk) = "degraded" \/
  fst (classify cpu mem disk) = "unhealthy".
Proof.
  unfold classify. thresholds; cbn; auto.
Qed.

Lemma classify_degraded (cpu mem disk : Q) :
  90 < cpu \/ 90 < mem \/ 90 < disk ->
  cpu <= 95 -> mem <= 95 -> disk <= 95 ->
  fst (classify cpu mem disk) = "degraded".
Proof.
  intros H Hc Hm Hd. unfold classify.
  thresholds; cbn; try reflexivity; lra.
Qed.

(** The three outcomes of a call, by what sampling gave. *)
Lemma check_cases st w :
  (exists cpu memory disk,
     sampling w = Return (cpu, memory, disk) /\
     cpu <= 95 /\ mem_percent memory <= 95 /\ disk_percent disk <= 95 /\
     check st w = (200%Z, VDict (health_data st w cpu memory disk))) \/
  (exists cpu memory disk,
     sampling w = Return (cpu, memory, disk) /\
     (95 < cpu \/ 95 < mem_percent memory \/ 95 < disk_percent disk) /\
     check st w =
       (503%Z,
        VDict (error_response w
                 (http_exception_str w 503
                    (VDict (health_data st w cpu memory disk)))))) \/
  (exists description,
     sampling w = Raise (Fault description) /\
     check st w = (503%Z, VDict (error_response w description))).
Proof.
  destruct (sampling_cases w) as [(cpu & memory & disk & Hs) | (s & Hs)].
  - destruct (Qlt_le_dec 95 cpu) as [Hc | Hc];
      [| destruct (Qlt_le_dec 95 (mem_percent memory)) as [Hm | Hm];
         [| destruct (Qlt_le_dec 95 (disk_percent disk)) as [Hd | Hd]]].
    4: { left. exists cpu, memory, disk. repeat (split; [assumption |]).
         apply check_routable; [exact Hs |].
         apply classify_not_unhealthy; assumption. }
    all: right; left; exists cpu, memory, disk;
      split; [exact Hs |]; split; [auto |];
      apply check_unhealthy; [exact Hs |];
      apply classify_unhealthy; auto.
  - right; right. exists s. split; [exact Hs | apply check_fault, Hs].
Qed.

(** X1: a call is answered with code 200 and a health report, or with
    code 503 and an error report; no other code and no other pairing of
    code and payload shape occurs (in particular no exception escapes as a
    500). *)
Theorem check_code_and_shape st w :
  (fst (check st w) = 200%Z /\
   is_health_report (snd (check st w)) = true /\
   is_error_report (snd (check st w)) = false) \/
  (fst (check st w) = 503%Z /\
   is_error_report (snd (check st w)) = true /\
   is_health_report (snd (check st w)) = false).
Proof.
  destruct (check_cases st w)
    as [(c & m & d & _ & _ & _ & _ & E)
       | [(c & m & d & _ & _ & E) | (s & _ & E)]]; rewrite E; cbn [fst snd].
  - left. split; [reflexivity |].
    pose proof (health_data_is_health_report st w c m d) as H.
    split; [exact H |].
    unfold health_data in *.
    destruct (classify c (mem_percent m) (disk_percent d)) as [x [| i l]];
      reflexivity.
  - right. repeat split; reflexivity.
  - right. repeat split; reflexivity.
Qed.

(** X2: the answer has code 200 exactly when all three sampling calls
    succeed and no metric exceeds 95; otherwise it is 503: the code is 200
    or 503, and it is 503 exactly when a sampling call raises or a metric
    exceeds 95. *)
Theorem check_code_200_iff st w :
  (fst (check st w) = 200%Z <->
   exists cpu memory disk,
     sampling w = Return (cpu, memory, disk) /\
     cpu <= 95 /\ mem_percent memory <= 95 /\ disk_percent disk <= 95) /\
  (fst (check st w) = 200%Z \/ fst (check st w) = 503%Z) /\
  (fst (check st w) = 503%Z <->
   (exists description, sampling w = Raise (Fault description)) \/
   (exists cpu memory disk,
      sampling w = Return (cpu, memory, disk) /\
      (95 < cpu \/ 95 < mem_percent memory \/ 95 < disk_percent disk))).
Proof.
  split; [| split].
  - split.
    + intros H.
      destruct (check_cases st w)
        as [(c & m & d & Hs & Hc & Hm & Hd & E)
           | [(c & m & d & _ & _ & E) | (s & _ & E)]];
        rewrite E in H; try discriminate.
      exists c, m, d. auto.
    + intros (c & m & d & Hs & Hc & Hm & Hd).
      rewrite (check_routable st w c m d Hs); [reflexivity |].
      apply classify_not_unhealthy; assumption.
  - destruct (check_cases st w)
      as [(c & m & d & _ & _ & _ & _ & E)
         | [(c & m & d & _ & _ & E) | (s & _ & E)]];
      rewrite E; [left | right | right]; reflexivity.
  - split.
    + intros H.
      destruct (check_cases st w)
        as [(c & m & d & _ & _ & _ & _ & E)
           | [(c & m & d & Hs & Hh & _) | (s & Hs & _)]].
      * rewrite E in H. discriminate.
      * right. exists c, m, d. split; [exact Hs | exact Hh].
      * left. exists s. exact Hs.
    + intros [(s & Hs) | (c & m & d & Hs & Hh)].
      * rewrite (check_fault st w s Hs). reflexivity.
      * rewrite (check_unhealthy st w c m d Hs); [reflexivity |].
        apply classify_unhealthy. exact Hh.
Qed.

(** X3: the payload always has a status, one of "healthy", "degraded" and
    "unhealthy", and it is "unhealthy" exactly when the code is 503. *)
Theorem payload_status_matches_code st w :
  (lookup ["status"] (snd (check st w)) = Some (VStr "healthy") \/
   lookup ["status"] (snd (check st w)) = Some (VStr "degraded") \/
   lookup ["status"] (snd (check st w)) = Some (VStr "unhealthy")) /\
  (lookup ["status"] (snd (check st w)) = Some (VStr "unhealthy") <->
   fst (check st w) = 503%Z).
Proof.
  destruct (check_cases st w)
    as [(c & m & d & _ & Hc & Hm & Hd & E)
       | [(c & m & d & _ & _ & E) | (s & _ & E)]]; rewrite E;
    cbn [fst snd lookup field].
  - rewrite health_data_status.
    pose proof (classify_not_unhealthy _ _ _ Hc Hm Hd) as Hn.
    destruct (classify_status_cases c (mem_percent m) (disk_percent d))
      as [H | [H | H]]; try contradiction; rewrite H.
    + split; [auto |]. split; discriminate.
    + split; [auto |]. split; discriminate.
  - split; [right; right; reflexivity |]. split; reflexivity.
  - split; [right; right; reflexivity |]. split; reflexivity.
Qed.

(** X4: the status is "healthy" exactly when every metric is at most 90,
    "unhealthy" exactly when some metric exceeds 95, and "degraded" in
    between; the comparisons are strict, so a metric of exactly 90 raises
    no issue and one of exactly 95 does not escalate. *)
Theorem status_thresholds (cpu mem disk : Q) :
  (fst (classify cpu mem disk) = "healthy" <->
   cpu <= 90 /\ mem <= 90 /\ disk <= 90) /\
  (fst (classify cpu mem disk) = "degraded" <->
   (90 < cpu \/ 90 < mem \/ 90 < disk) /\
   cpu <= 95 /\ mem <= 95 /\ disk <= 95) /\
  (fst (classify cpu mem disk) = "unhealthy" <->
   95 < cpu \/ 95 < mem \/ 95 < disk).
Proof.
  unfold classify.
  thresholds; cbn; repeat split; intros; try discriminate; try lra;
    try (left; lra); try (right; left; lra); try (right; right; lra);
    try (exfalso; intuition lra).
Qed.

(** X5: the psutil calls are made in the order CPU, memory, disk and the
    first one that fails decides the answer: code 503 and an error report
    whose error is that call's description, whatever the later calls
    would have given. *)
Theorem first_fault_reported st w (description : string) :
  cpu_sample w = SamplingFault description \/
  (exists cpu,
     cpu_sample w = Sampled cpu /\
     memory_sample w = SamplingFault description) \/
  (exists cpu memory,
     cpu_sample w = Sampled cpu /\
     memory_sample w = Sampled memory /\
     disk_sample w = SamplingFault description) ->
  check st w =
    (503%Z,
     VDict [ ("status", VStr "unhealthy");
             ("timestamp", VStr (utcnow_error w));
             ("error", VStr description);
             ("service", VDict [ ("name", VStr "ml-service");
                                 ("version", VStr "1.0.0") ]) ]).
Proof.
  intros H. apply check_fault. unfold sampling.
  destruct H as [H | [(c & Hc & H) | (c & m & Hc & Hm & H)]].
  - rewrite H. reflexivity.
  - rewrite Hc, H. reflexivity.
  - rewrite Hc, Hm, H. reflexivity.
Qed.

Lemma first_fault_reported_witness :
  disk_sample cpu_and_disk_fault_world = SamplingFault "disk unreadable" /\
  lookup ["error"] (snd (check 0 cpu_and_disk_fault_world)) =
    Some (VStr "cpu counters unavailable").
Proof.
  split; [reflexivity |].
  rewrite (first_fault_reported 0 cpu_and_disk_fault_world
             "cpu counters unavailable" (or_introl eq_refl)).
  reflexivity.
Defined.

(** X6: the issues list has one entry per metric above 90, so at most
    three, never a repeated message, and it is empty exactly when the
    status is "healthy". *)
Theorem issues_count (cpu mem disk : Q) :
  length (snd (classify cpu mem disk)) =
    length (filter (fun x => gt x 90) [cpu; mem; disk]) /\
  (length (snd (classify cpu mem disk)) <= 3)%nat /\
  NoDup (snd (classify cpu mem disk)) /\
  (snd (classify cpu mem disk) = [] <-> fst (classify cpu mem disk) = "healthy").
Proof.
  unfold classify. cbn [filter].
  thresholds; cbn; try lra;
    (split; [reflexivity |]); (split; [lia |]);
    (split; [repeat constructor; cbn; intuition discriminate |]);
    split; intros; try reflexivity; discriminate.
Qed.

(** X7: the report has the six keys status, timestamp, uptime_seconds,
    uptime_hours, system and service in this order; the key issues is
    added after them exactly when some metric exceeds 90, and is absent
    otherwise. *)
Theorem report_keys st w (cpu : Q) (memory : svmem) (disk : sdiskusage) :
  (cpu <= 90 /\ mem_percent memory <= 90 /\ disk_percent disk <= 90 /\
   dict_keys (health_data st w cpu memory disk) =
     ["status"; "timestamp"; "uptime_seconds"; "uptime_hours";
      "system"; "service"]) \/
  ((90 < cpu \/ 90 < mem_percent memory \/ 90 < disk_percent disk) /\
   dict_keys (health_data st w cpu memory disk) =
     ["status"; "timestamp"; "uptime_seconds"; "uptime_hours";
      "system"; "service"; "issues"]).
Proof.
  pose proof (classify_issues cpu (mem_percent memory) (disk_percent disk)) as His.
  unfold health_data.
  destruct (classify cpu (mem_percent memory) (disk_percent disk))
    as [status issues].
  cbn [snd] in His. subst issues.
  unfold issues_above_90. cbn [combine issue_messages filter fst].
  thresholds; cbn; first
    [ left; repeat (split; [lra |]); reflexivity
    | right; split; [lra | reflexivity]
    | right; split; [left; lra | reflexivity]
    | right; split; [right; left; lra | reflexivity]
    | right; split; [right; right; lra | reflexivity] ].
Qed.

(** X8: when sampling succeeds, no metric exceeds 95 and at least one
    exceeds 90, the answer has code 200, status "degraded" and, as issues,
    the messages of all the metrics above 90 (one, two or three of them). *)
Theorem degraded_report st w (cpu : Q) (memory : svmem) (disk : sdiskusage) :
  sampling w = Return (cpu, memory, disk) ->
  90 < cpu \/ 90 < mem_percent memory \/ 90 < disk_percent disk ->
  cpu <= 95 -> mem_percent memory <= 95 -> disk_percent disk <= 95 ->
  fst (check st w) = 200%Z /\
  lookup ["status"] (snd (check st w)) = Some (VStr "degraded") /\
  lookup ["issues"] (snd (check st w)) =
    Some (VList (map VStr
                   (issues_above_90 cpu (mem_percent memory) (disk_percent disk)))) /\
  issues_above_90 cpu (mem_percent memory) (disk_percent disk) <> [].
Proof.
  intros Hs H Hc Hm Hd.
  pose proof (classify_degraded _ _ _ H Hc Hm Hd) as Hst.
  pose proof (classify_issues cpu (mem_percent memory) (disk_percent disk)) as His.
  assert (Hne : issues_above_90 cpu (mem_percent memory) (disk_percent disk) <> []).
  { unfold issues_above_90. cbn [combine issue_messages filter fst].
    thresholds; cbn; try discriminate; lra. }
  rewrite (check_routable st w _ _ _ Hs) by (rewrite Hst; discriminate).
  cbn [fst snd lookup field].
  rewrite health_data_status, health_data_issues, Hst, His.
  repeat split; try assumption.
  destruct (issues_above_90 cpu (mem_percent memory) (disk_percent disk));
    [contradiction | reflexivity].
Qed.

Lemma degraded_report_witness :
  fst (check 0 (quiet_world 91 91 10 100)) = 200%Z /\
  lookup ["issues"] (snd (check 0 (quiet_world 91 91 10 100))) =
    Some (VList [VStr "High CPU usage"; VStr "High memory usage"]).
Proof.
  destruct (degraded_report 0 (quiet_world 91 91 10 100) 91
              {| mem_percent := 91; mem_available := 8589934592 |}
              {| disk_percent := 10; disk_free := 53687091200 |})
    as (H1 & _ & H2 & _).
  - reflexivity.
  - left. reflexivity.
  - discriminate.
  - discriminate.
  - discriminate.
  - split; [exact H1 | exact H2].
Defined.

(** X9: the status depends on the three metrics only through the largest
    of them: it is the status of a host whose three metrics all equal that
    maximum. *)
Theorem status_of_maximum (cpu mem disk : Q) :
  fst (classify cpu mem disk) =
  fst (classify (Qmax cpu (Qmax mem disk)) (Qmax cpu (Qmax mem disk))
                (Qmax cpu (Qmax mem disk))).
Proof.
  set (M := Qmax cpu (Qmax mem disk)).
  assert (HM : cpu <= M /\ mem <= M /\ disk <= M /\
               (M == cpu \/ M == mem \/ M == disk)).
  { unfold M.
    destruct (Q.max_spec mem disk) as [[H1 E1] | [H1 E1]];
      destruct (Q.max_spec cpu (Qmax mem disk)) as [[H2 E2] | [H2 E2]];
      rewrite E2, ?E1; rewrite ?E1 in H2;
      repeat split; try lra; auto;
      try (left; reflexivity); try (right; left; reflexivity);
      try (right; right; reflexivity). }
  destruct HM as (Hc & Hm & Hd & HM).
  clearbody M. unfold classify.
  thresholds; cbn; try reflexivity; exfalso;
    destruct HM as [HM | [HM | HM]]; lra.
Qed.

(** ** Rounding, again *)

Lemma round_half_even_comp (x y : Q) :
  x == y -> round_half_even x = round_half_even y.
Proof.
  intros H. apply Z.le_antisymm; apply round_half_even_mono; lra.
Qed.

Lemma round_comp (x y : Q) (ndigits : nat) :
  x == y -> round x ndigits = round y ndigits.
Proof.
  intros H. unfold round.
  rewrite (round_half_even_comp (x * inject_Z (10 ^ Z.of_nat ndigits))
             (y * inject_Z (10 ^ Z.of_nat ndigits))); [reflexivity |].
  rewrite H. reflexivity.
Qed.

Lemma round_half_even_Z (k : Z) : round_half_even (inject_Z k) = k.
Proof.
  unfold round_half_even. rewrite Qfloor_Z.
  destruct (Qcompare_spec (inject_Z k - inject_Z k) (1 # 2)) as [E | E | E];
    try reflexivity; exfalso; lra.
Qed.

Lemma round_two_decimals_fixed (q : Q) : two_decimals q -> round q 2 == q.
Proof.
  intros [k Hk]. unfold round.
  change (inject_Z (10 ^ Z.of_nat 2)) with 100.
  rewrite (round_half_even_comp (q * 100) (inject_Z k)).
  - rewrite round_half_even_Z. symmetry. exact Hk.
  - rewrite Hk. field.
Qed.

(** ** The numbers of the report *)

(** X10: the four rounded numbers of the report are stable: each has at
    most two decimal places, so rounding it to two places again gives the
    same number. *)
Theorem rounded_fields_stable st w (cpu : Q) (memory : svmem) (disk : sdiskusage) :
  exists seconds hours available_gb free_gb,
    lookup ["uptime_seconds"] (VDict (health_data st w cpu memory disk)) =
      Some (VNum seconds) /\
    lookup ["uptime_hours"] (VDict (health_data st w cpu memory disk)) =
      Some (VNum hours) /\
    lookup ["system"; "memory_available_gb"]
      (VDict (health_data st w cpu memory disk)) = Some (VNum available_gb) /\
    lookup ["system"; "disk_free_gb"]
      (VDict (health_data st w cpu memory disk)) = Some (VNum free_gb) /\
    round seconds 2 == seconds /\ round hours 2 == hours /\
    round available_gb 2 == available_gb /\ round free_gb 2 == free_gb.
Proof.
  destruct (health_data_numbers st w cpu memory disk)
    as (Hs & Hh & Ha & Hf & _).
  cbv zeta in Hs, Hh, Ha, Hf.
  eexists _, _, _, _.
  split; [exact Hs |]. split; [exact Hh |].
  split; [exact Ha |]. split; [exact Hf |].
  repeat split; apply round_two_decimals_fixed, round_two_decimals.
Qed.

(** X11: when the clock is not behind the start time, the reported uptime
    in hours is between 0 and the reported uptime in seconds, and it
    differs from the reported seconds over 3600 by at most
    0.005 + 0.005/3600. *)
Theorem uptime_bounds st w (cpu : Q) (memory : svmem) (disk : sdiskusage) :
  st <= time_time w ->
  exists seconds hours,
    lookup ["uptime_seconds"] (VDict (health_data st w cpu memory disk)) =
      Some (VNum seconds) /\
    lookup ["uptime_hours"] (VDict (health_data st w cpu memory disk)) =
      Some (VNum hours) /\
    0 <= hours /\ hours <= seconds /\
    seconds / 3600 - (3601 # 720000) <= hours /\
    hours <= seconds / 3600 + (3601 # 720000).
Proof.
  intros H.
  destruct (health_data_numbers st w cpu memory disk) as (Hs & Hh & _).
  cbv zeta in Hs, Hh.
  exists (round (time_time w - st) 2), (round ((time_time w - st) / 3600) 2).
  split; [exact Hs |]. split; [exact Hh |].
  set (raw := time_time w - st) in *.
  assert (Hraw : 0 <= raw) by (unfold raw; lra).
  assert (E3 : 3600 * (raw / 3600) == raw) by (apply Qmult_div_r; discriminate).
  assert (Es : 3600 * (round raw 2 / 3600) == round raw 2)
    by (apply Qmult_div_r; discriminate).
  pose proof (round_2_close raw) as [Hs1 Hs2].
  pose proof (round_2_close (raw / 3600)) as [Hh1 Hh2].
  assert (H0 : round 0 2 == 0) by reflexivity.
  split.
  { rewrite <- H0. apply round_mono. lra. }
  split.
  { apply round_mono. lra. }
  split; lra.
Qed.

Lemma uptime_bounds_witness :
  exists seconds hours,
    lookup ["uptime_seconds"] (snd (check 0 (quiet_world 10 20 30 100))) =
      Some (VNum seconds) /\
    lookup ["uptime_hours"] (snd (check 0 (quiet_world 10 20 30 100))) =
      Some (VNum hours) /\
    0 <= hours /\ hours <= seconds.
Proof.
  destruct (uptime_bounds 0 (quiet_world 10 20 30 100) 10
              {| mem_percent := 20; mem_available := 8589934592 |}
              {| disk_percent := 30; disk_free := 53687091200 |})
    as (s & h & H1 & H2 & H3 & H4 & _).
  - discriminate.
  - exists s, h. repeat split; assumption.
Defined.

(** X12: the uptime is not clamped: when the clock reads at least 0.01
    second less than the start time (a clock set back since start-up),
    the reported uptime in seconds is negative. *)
Theorem uptime_negative_when_clock_behind st w (cpu : Q) (memory : svmem)
    (disk : sdiskusage) :
  time_time w + (1 # 100) <= st ->
  exists seconds,
    lookup ["uptime_seconds"] (VDict (health_data st w cpu memory disk)) =
      Some (VNum seconds) /\
    seconds <= - (1 # 100).
Proof.
  intros H.
  destruct (health_data_numbers st w cpu memory disk) as (Hs & _).
  cbv zeta in Hs.
  exists (round (time_time w - st) 2). split; [exact Hs |].
  assert (H0 : round (- (1 # 100)) 2 == - (1 # 100)) by reflexivity.
  rewrite <- H0. apply round_mono. lra.
Qed.

Lemma uptime_negative_when_clock_behind_witness :
  fst (check 60 (quiet_world 10 20 30 50)) = 200%Z /\
  exists seconds,
    lookup ["uptime_seconds"] (snd (check 60 (quiet_world 10 20 30 50))) =
      Some (VNum seconds) /\
    seconds <= - (1 # 100).
Proof.
  split; [reflexivity |].
  destruct (uptime_negative_when_clock_behind 60 (quiet_world 10 20 30 50) 10
              {| mem_percent := 20; mem_available := 8589934592 |}
              {| disk_percent := 30; disk_free := 53687091200 |})
    as (s & H1 & H2).
  - discriminate.
  - exists s. split; assumption.
Defined.

(** X13: a whole number of GiB of available memory or of free disk space
    is reported exactly. *)
Theorem whole_GiB_exact st w (cpu : Q) (memory : svmem) (disk : sdiskusage)
    (n k : Z) :
  mem_available memory = (n * 1073741824)%Z ->
  disk_free disk = (k * 1073741824)%Z ->
  exists available_gb free_gb,
    lookup ["system"; "memory_available_gb"]
      (VDict (health_data st w cpu memory disk)) = Some (VNum available_gb) /\
    lookup ["system"; "disk_free_gb"]
      (VDict (health_data st w cpu memory disk)) = Some (VNum free_gb) /\
    available_gb == inject_Z n /\
    free_gb == inject_Z k.
Proof.
  intros Hm Hd.
  destruct (health_data_numbers st w cpu memory disk) as (_ & _ & Ha & Hf & _).
  cbv zeta in Ha, Hf.
  eexists _, _. split; [exact Ha |]. split; [exact Hf |].
  assert (whole : forall z : Z,
             round (inject_Z (z * 1073741824) / 1073741824) 2 == inject_Z z).
  { intros z.
    rewrite (round_comp _ (inject_Z z)).
    - apply round_two_decimals_fixed. exists (z * 100)%Z.
      rewrite inject_Z_mult. field.
    - rewrite inject_Z_mult. field. }
  rewrite Hm, Hd. split; apply whole.
Qed.

Lemma whole_GiB_exact_witness :
  exists available_gb free_gb,
    lookup ["system"; "memory_available_gb"]
      (snd (check 0 (quiet_world 10 20 30 100))) = Some (VNum available_gb) /\
    lookup ["system"; "disk_free_gb"]
      (snd (check 0 (quiet_world 10 20 30 100))) = Some (VNum free_gb) /\
    available_gb == 8 /\ free_gb == 50.
Proof.
  exact (whole_GiB_exact 0 (quiet_world 10 20 30 100) 10
           {| mem_percent := 20; mem_available := 8589934592 |}
           {| disk_percent := 30; disk_free := 53687091200 |}
           8 50 eq_refl eq_refl).
Defined.

(** X14: the reported gigabytes follow the bytes: no byte count that is
    not negative is reported as a negative number of GB, and more
    available bytes are never reported as fewer GB. *)
Theorem available_gb_monotone st w (cpu : Q) (memory1 memory2 : svmem)
    (disk : sdiskusage) :
  (0 <= mem_available memory1 <= mem_available memory2)%Z ->
  exists gb1 gb2,
    lookup ["system"; "memory_available_gb"]
      (VDict (health_data st w cpu memory1 disk)) = Some (VNum gb1) /\
    lookup ["system"; "memory_available_gb"]
      (VDict (health_data st w cpu memory2 disk)) = Some (VNum gb2) /\
    0 <= gb1 /\ gb1 <= gb2.
Proof.
  intros [H0 H12].
  destruct (health_data_numbers st w cpu memory1 disk) as (_ & _ & Ha1 & _).
  destruct (health_data_numbers st w cpu memory2 disk) as (_ & _ & Ha2 & _).
  cbv zeta in Ha1, Ha2.
  eexists _, _. split; [exact Ha1 |]. split; [exact Ha2 |].
  assert (Hpos : 0 < 1073741824) by reflexivity.
  assert (Hz : round 0 2 == 0) by reflexivity.
  split.
  - rewrite <- Hz. apply round_mono.
    apply Qle_shift_div_l; [exact Hpos |].
    rewrite Qmult_0_l. change 0 with (inject_Z 0). rewrite <- Zle_Qle. exact H0.
  - apply round_mono. apply Qmult_le_compat_r.
    + rewrite <- Zle_Qle. exact H12.
    + discriminate.
Qed.

Lemma available_gb_monotone_witness :
  exists gb1 gb2,
    lookup ["system"; "memory_available_gb"]
      (VDict (health_data 0 (quiet_world 10 20 30 100) 10
                {| mem_percent := 20; mem_available := 1000000 |}
                {| disk_percent := 30; disk_free := 53687091200 |})) =
      Some (VNum gb1) /\
    lookup ["system"; "memory_available_gb"]
      (VDict (health_data 0 (quiet_world 10 20 30 100) 10
                {| mem_percent := 20; mem_available := 8589934592 |}
                {| disk_percent := 30; disk_free := 53687091200 |})) =
      Some (VNum gb2) /\
    0 <= gb1 /\ gb1 <= gb2.
Proof.
  apply (available_gb_monotone 0 (quiet_world 10 20 30 100) 10
           {| mem_percent := 20; mem_available := 1000000 |}
           {| mem_percent := 20; mem_available := 8589934592 |}
           {| disk_percent := 30; disk_free := 53687091200 |}).
  split; discriminate.
Defined.

(** ** The unhealthy path, in general *)

(** X15: whenever sampling succeeds and some metric exceeds 95, the
    report is built with status "unhealthy" but what is sent is the
    handler's answer: code 503, the handler's own timestamp, the string of
    the raised exception as error, a service record of name and version,
    and no uptime, system or issues field. *)
Theorem unhealthy_answer st w (cpu : Q) (memory : svmem) (disk : sdiskusage) :
  sampling w = Return (cpu, memory, disk) ->
  95 < cpu \/ 95 < mem_percent memory \/ 95 < disk_percent disk ->
  dict_get "status" (health_data st w cpu memory disk) =
    Some (VStr "unhealthy") /\
  check st w =
    (503%Z,
     VDict [ ("status", VStr "unhealthy");
             ("timestamp", VStr (utcnow_error w));
             ("error",
               VStr (http_exception_str w 503
                       (VDict (health_data st w cpu memory disk))));
             ("service", VDict [ ("name", VStr "ml-service");
                                 ("version", VStr "1.0.0") ]) ]) /\
  lookup ["uptime_seconds"] (snd (check st w)) = None /\
  lookup ["system"] (snd (check st w)) = None /\
  lookup ["issues"] (snd (check st w)) = None.
Proof.
  intros Hs H.
  pose proof (classify_unhealthy _ _ _ H) as Hst.
  rewrite health_data_status, Hst.
  rewrite (check_unhealthy st w _ _ _ Hs Hst).
  repeat split; reflexivity.
Qed.

Lemma unhealthy_answer_witness :
  fst (check 0 (quiet_world 10 20 99 100)) = 503%Z /\
  lookup ["system"] (snd (check 0 (quiet_world 10 20 99 100))) = None.
Proof.
  destruct (unhealthy_answer 0 (quiet_world 10 20 99 100) 10
              {| mem_percent := 20; mem_available := 8589934592 |}
              {| disk_percent := 99; disk_free := 53687091200 |})
    as (_ & H1 & _ & H2 & _).
  - reflexivity.
  - right; right. reflexivity.
  - split; [rewrite H1; reflexivity | exact H2].
Defined.

(** ** Item assignment *)

Lemma dict_get_set_same (k : string) (v : value) (d : dict) :
  dict_get k (dict_set k v d) = Some v.
Proof.
  induction d as [| [k0 v0] d IH]; cbn.
  - rewrite String.eqb_refl. reflexivity.
  - destruct (String.eqb k k0) eqn:E; cbn; rewrite E; [reflexivity | exact IH].
Qed.

Lemma dict_get_set_other (k k' : string) (v : value) (d : dict) :
  k' <> k -> dict_get k' (dict_set k v d) = dict_get k' d.
Proof.
  intros H. induction d as [| [k0 v0] d IH]; cbn.
  - apply String.eqb_neq in H. rewrite H. reflexivity.
  - destruct (String.eqb k k0) eqn:E; cbn.
    + apply String.eqb_eq in E. subst k0.
      apply String.eqb_neq in H. rewrite H. reflexivity.
    + rewrite IH. reflexivity.
Qed.

Lemma dict_keys_set (k : string) (v : value) (d : dict) :
  (dict_get k d = None /\ dict_keys (dict_set k v d) = (dict_keys d ++ [k])%list) \/
  (dict_get k d <> None /\ dict_keys (dict_set k v d) = dict_keys d).
Proof.
  induction d as [| [k0 v0] d IH]; cbn.
  - left. split; reflexivity.
  - destruct (String.eqb k k0) eqn:E; cbn.
    + right. split; [discriminate | reflexivity].
    + destruct IH as [[H1 H2] | [H1 H2]]; [left | right];
        (split; [exact H1 |]); unfold dict_keys in *; rewrite H2; reflexivity.
Qed.

(** X16: assigning to a key of a dict, as line 97 does with issues, makes
    a lookup of that key give the assigned value and leaves the lookups
    of every other key as they were; a key that was absent is added after
    the existing ones, a key that was present keeps its place. *)
Theorem dict_set_get (k k' : string) (v : value) (d : dict) :
  k' <> k ->
  dict_get k (dict_set k v d) = Some v /\
  dict_get k' (dict_set k v d) = dict_get k' d /\
  ((dict_get k d = None /\
    dict_keys (dict_set k v d) = (dict_keys d ++ [k])%list) \/
   (dict_get k d <> None /\ dict_keys (dict_set k v d) = dict_keys d)).
Proof.
  intros H. split; [apply dict_get_set_same |].
  split; [apply dict_get_set_other, H | apply dict_keys_set].
Qed.

Lemma dict_set_get_witness :
  dict_get "issues" (dict_set "issues" (VList []) root) = Some (VList []) /\
  dict_get "status" (dict_set "issues" (VList []) root) = dict_get "status" root.
Proof.
  destruct (dict_set_get "issues" "status" (VList []) root) as (H1 & H2 & _).
  - discriminate.
  - split; [exact H1 | exact H2].
Defined.

(** ** Service identity *)

(** X17: both payload shapes of the health endpoint name the same service
    and version, and that version is the one the root endpoint reports;
    neither depends on the readings. *)
Theorem service_identity_consistent st w (cpu : Q) (memory : svmem)
    (disk : sdiskusage) (error : string) :
  lookup ["service"; "name"] (VDict (health_data st w cpu memory disk)) =
    lookup ["service"; "name"] (VDict (error_response w error)) /\
  lookup ["service"; "version"] (VDict (health_data st w cpu memory disk)) =
    lookup ["version"] (VDict root) /\
  lookup ["service"; "version"] (VDict (error_response w error)) =
    lookup ["version"] (VDict root) /\
  lookup ["service"; "name"] (snd (check st w)) = Some (VStr "ml-service") /\
  lookup ["service"; "version"] (snd (check st w)) = lookup ["version"] (VDict root).
Proof.
  assert (H : lookup ["service"; "name"] (VDict (health_data st w cpu memory disk))
              = Some (VStr "ml-service") /\
              lookup ["service"; "version"] (VDict (health_data st w cpu memory disk))
              = Some (VStr "1.0.0")).
  { unfold health_data.
    destruct (classify cpu (mem_percent memory) (disk_percent disk)) as [s [| i l]];
      split; reflexivity. }
  destruct H as [Hn Hv]. rewrite Hn, Hv.
  repeat split; try reflexivity.
  all: destruct (check_cases st w)
      as [(c & m & d & _ & _ & _ & _ & E)
         | [(c & m & d & _ & _ & E) | (s & _ & E)]]; rewrite E; cbn [snd];
    try reflexivity.
  all: unfold health_data;
    destruct (classify c (mem_percent m) (disk_percent d)) as [x [| i l]];
    reflexivity.
Qed.

(** ** More load is never better *)

(** X18: when no metric goes down, the status does not improve (healthy,
    then degraded, then unhealthy) and no issue disappears: the issues
    before are a subsequence of the issues after. *)
Theorem status_monotone (cpu1 mem1 disk1 cpu2 mem2 disk2 : Q) :
  cpu1 <= cpu2 -> mem1 <= mem2 -> disk1 <= disk2 ->
  (severity (fst (classify cpu1 mem1 disk1)) <=
   severity (fst (classify cpu2 mem2 disk2)))%nat /\
  subsequence (snd (classify cpu1 mem1 disk1)) (snd (classify cpu2 mem2 disk2)).
Proof.
  intros Hc Hm Hd. split.
  - destruct (Qlt_le_dec 95 cpu2) as [H95c | H95c];
      [| destruct (Qlt_le_dec 95 mem2) as [H95m | H95m];
         [| destruct (Qlt_le_dec 95 disk2) as [H95d | H95d]]].
    1-3: rewrite (classify_unhealthy cpu2 mem2 disk2) by auto;
         destruct (classify_status_cases cpu1 mem1 disk1) as [E | [E | E]];
         rewrite E; cbn; lia.
    assert (N1 : fst (classify cpu1 mem1 disk1) <> "unhealthy")
      by (apply classify_not_unhealthy; lra).
    destruct (Qlt_le_dec 90 cpu2) as [H90c | H90c];
      [| destruct (Qlt_le_dec 90 mem2) as [H90m | H90m];
         [| destruct (Qlt_le_dec 90 disk2) as [H90d | H90d]]].
    1-3: rewrite (classify_degraded cpu2 mem2 disk2) by auto;
         destruct (classify_status_cases cpu1 mem1 disk1) as [E | [E | E]];
         try contradiction; rewrite E; cbn; lia.
    rewrite (classify_healthy cpu2 mem2 disk2) by assumption.
    rewrite (classify_healthy cpu1 mem1 disk1) by lra.
    cbn. lia.
  - rewrite !classify_issues. unfold issues_above_90.
    cbn [combine issue_messages filter fst].
    thresholds; cbn; try lra; repeat constructor.
Qed.

Lemma status_monotone_witness :
  (severity (fst (classify 50 92 10)) <= severity (fst (classify 50 97 91)))%nat /\
  subsequence (snd (classify 50 92 10)) (snd (classify 50 97 91)).
Proof.
  apply (status_monotone 50 92 10 50 97 91); discriminate.
Defined.
